(** * Scheduling library (src/common/libs/scheduling/index.ts)

    A shallow embedding of the fee formulas, the two call encoders, the
    validity-report decoder, the scheduler address lookup and the status page
    address of the Ethereum Alarm Clock scheduling helpers.

    - A [BN] (bn.js big integer) is a [Z]: bn.js integers are signed and
      unbounded, [add] and [mul] allocate a fresh number and leave their
      operands alone.
    - A parameter typed [BN | null] is an [option Z]; [None] is [null].
      A [BN] is a JavaScript object, hence truthy whatever its value: the tests
      [!x] and [x || d] of the source only ever see [null].
    - A parameter typed [any] is a [JsValue], with JavaScript's [ToBoolean].
    - The ABI encoders and [toBuffer] belong to other packages; they are the
      variables of the section that holds the encoders. *)

From Stdlib Require Import ZArith List String Bool Lia.
From Stdlib Require Import Strings.Byte.
Import ListNotations.

Module Scheduling.

Local Open Scope string_scope.
Local Open Scope Z_scope.

(** ** Values *)

(** bn.js number. *)
Definition BN : Type := Z.

(** Node [Buffer]. *)
Definition Buffer : Type := list byte.

(** The JavaScript values an [any]-typed argument, or an element of an encoder
    argument array, may hold.  [JsNumber n] is the double of integer value [n]
    (so [JsNumber 0] stands for both zeros); [JsNaN] is the one further number
    whose truth value matters. *)
Inductive JsValue : Type :=
  | JsUndefined
  | JsNull
  | JsBool (b : bool)
  | JsNumber (n : Z)
  | JsNaN
  | JsString (s : string)
  | JsBN (v : BN).

(** ECMAScript [ToBoolean]. *)
Definition truthy (v : JsValue) : bool :=
  match v with
  | JsUndefined | JsNull | JsNaN => false
  | JsBool b => b
  | JsNumber n => negb (n =? 0)
  | JsString s => negb (String.eqb s "")
  | JsBN _ => true
  end.

(** A value is absent when it is [null] or [undefined]. *)
Definition absent (v : JsValue) : bool :=
  match v with
  | JsUndefined | JsNull => true
  | _ => false
  end.

(** [x || d] on a [BN | null]. *)
Definition or_else (x : option BN) (d : BN) : BN :=
  match x with
  | Some v => v
  | None => d
  end.

(** [!x] on a [BN | null]. *)
Definition is_null (x : option BN) : bool :=
  match x with
  | Some _ => false
  | None => true
  end.

(** [a.lt(b)] of bn.js. *)
Definition lt (a b : BN) : bool := a <? b.

(** [x.bitLength()] of bn.js: the number of bits of the magnitude of [x],
    zero for zero. *)
Definition bitLength (x : BN) : Z :=
  if x =? 0 then 0 else Z.log2 (Z.abs x) + 1.

(** ** Configuration *)

Definition TIME_BOUNTY_MIN : BN := 1.

Module EAC_SCHEDULING_CONFIG.
Definition DAPP_ADDRESS : string := "https://app.chronologic.network".
Definition SCHEDULE_GAS_LIMIT_FALLBACK : BN := 21000.
Definition SCHEDULE_GAS_PRICE_FALLBACK : Z := 20.
Definition FEE : BN := 2242000000000000.
Definition FEE_MULTIPLIER : BN := 2.
Definition FUTURE_EXECUTION_COST : BN := 180000.
Definition SCHEDULING_GAS_LIMIT : BN := 1500000.
Definition WINDOW_SIZE_DEFAULT_TIME : Z := 10.
Definition WINDOW_SIZE_DEFAULT_BLOCK : Z := 90.
Definition TIME_BOUNTY_MIN : BN := Scheduling.TIME_BOUNTY_MIN.
Definition TIME_BOUNTY_DEFAULT : BN := Scheduling.TIME_BOUNTY_MIN.
End EAC_SCHEDULING_CONFIG.


(** ** Cost formulas *)

Definition calcEACFutureExecutionCost
    (callGas callGasPrice : BN) (timeBounty : option BN) : BN :=
  let totalGas := callGas + EAC_SCHEDULING_CONFIG.FUTURE_EXECUTION_COST in
  let timeBounty :=
    match timeBounty with
    | None => EAC_SCHEDULING_CONFIG.TIME_BOUNTY_MIN
    | Some given => given
    end in
  timeBounty
  + EAC_SCHEDULING_CONFIG.FEE * EAC_SCHEDULING_CONFIG.FEE_MULTIPLIER
  + totalGas * callGasPrice.

Section Units.

(** [gasPriceToBase] of [../units] is imported, not defined, by this module:
    it takes a gas price as a JavaScript number and returns a [BN]. *)
Variable gasPriceToBase : Z -> BN.

Definition calcEACEndowment
    (callGas callValue callGasPrice : option BN) (timeBounty : BN) : BN :=
  let callValue := or_else callValue 0 in
  callValue
  + calcEACFutureExecutionCost
      (or_else callGas EAC_SCHEDULING_CONFIG.SCHEDULE_GAS_LIMIT_FALLBACK)
      (or_else callGasPrice
         (gasPriceToBase EAC_SCHEDULING_CONFIG.SCHEDULE_GAS_PRICE_FALLBACK))
      (Some timeBounty).

End Units.

Definition calcEACTotalCost
    (callGas gasPrice callGasPrice : BN) (timeBounty : option BN) : BN :=
  let deployCost := gasPrice * EAC_SCHEDULING_CONFIG.SCHEDULING_GAS_LIMIT in
  let futureExecutionCost :=
    calcEACFutureExecutionCost callGas callGasPrice timeBounty in
  deployCost + futureExecutionCost.

(** ** Validity report decoder *)

Definition Errors : list string :=
  [ "InsufficientEndowment";
    "ReservedWindowBiggerThanExecutionWindow";
    "InvalidTemporalUnit";
    "ExecutionWindowTooSoon";
    "CallGasTooHigh";
    "EmptyToAddress" ].

(** The [forEach] loop of [parseSchedulingParametersValidity], from position
    [index] on, threading the array [errors] it pushes to.  [Errors[index]] is
    [nth_error Errors index]: past the end of [Errors] JavaScript reads
    [undefined], here [None], and the loop pushes that. *)
Fixpoint forEach_push
    (isValid : list bool) (index : nat) (errors : list (option string))
    : list (option string) :=
  match isValid with
  | [] => errors
  | boolIsTrue :: rest =>
      forEach_push rest (S index)
        (if negb boolIsTrue then errors ++ [nth_error Errors index]
         else errors)
  end.

Definition parseSchedulingParametersValidity (isValid : list bool)
    : list (option string) :=
  forEach_push isValid 0%nat [].

(** ** Encoders *)

(** [callData: string | Buffer]. *)
Inductive CallData : Type :=
  | CallDataString (s : string)
  | CallDataBuffer (b : Buffer).

(** The object handed to [RequestFactory.validateRequestParams.encodeInput]. *)
Record ValidateRequestParamsInput : Type := {
  _addressArgs : list string;
  _uintArgs : list JsValue;
  _callData : string;
  _endowment : BN
}.

Section Encoders.

(** What a call of [abi.simpleEncode] results in.  The encoder is a black
    box; its call is the last thing [getScheduleData] does, so its outcome, a
    payload or an exception of its own, is the outcome of the function. *)
Variable Payload : Type.

(** [toBuffer] of ethereumjs-util, on strings. *)
Variable toBuffer : string -> Buffer.

(** [abi.simpleEncode(signature, toAddress, callData, uintArgs)]. *)
Variable simpleEncode : string -> string -> Buffer -> list JsValue -> Payload.

(** [RequestFactory.validateRequestParams.encodeInput]. *)
Variable encodeInput : ValidateRequestParamsInput -> string.

(** [None] as result is the bare [return;], that is [undefined].  An omitted
    [callData] ([None]) takes the default [''].  The guard is evaluated left
    to right as [||] does, so every method call is on a number known not to be
    [null]. *)
Definition getScheduleData
    (toAddress : string) (callData : option CallData)
    (callGas callValue windowSize : option BN) (windowStart : JsValue)
    (callGasPrice timeBounty requiredDeposit : option BN) : option Payload :=
  let requiredDeposit :=
    match requiredDeposit with
    | None => 0
    | Some deposit => if lt deposit 0 then 0 else deposit
    end in
  let callData :=
    match callData with
    | None => toBuffer ""
    | Some (CallDataString s) => toBuffer s
    | Some (CallDataBuffer b) => b
    end in
  match callValue with None => None | Some callValue =>
  match callGas with None => None | Some callGas =>
  match callGasPrice with None => None | Some callGasPrice =>
  if negb (truthy windowStart) then None else
  match windowSize with None => None | Some windowSize =>
  match timeBounty with None => None | Some timeBounty =>
  if lt timeBounty 0
     || lt callGasPrice 0
     || lt windowSize 0
     || (256 <? bitLength windowSize)
  then None
  else
    Some (simpleEncode "schedule(address,bytes,uint[8]):(address)"
            toAddress callData
            [ JsBN callGas;
              JsBN callValue;
              JsBN windowSize;
              windowStart;
              JsBN callGasPrice;
              JsBN EAC_SCHEDULING_CONFIG.FEE;
              JsBN timeBounty;
              JsBN requiredDeposit ])
  end end end end end.

(** [windowStart: number] is the double of integer value [windowStart];
    an omitted [callData] ([None]) takes the default ['']. *)
Definition getValidateRequestParamsData
    (toAddress : string) (callData : option string)
    (callGas : BN) (callValue : JsValue) (windowSize : option BN)
    (windowStart : Z) (gasPrice timeBounty requiredDeposit : BN)
    (isTimestamp : bool) (endowment : BN) (fromAddress : string) : string :=
  let callData := match callData with None => "" | Some s => s end in
  let windowSize := or_else windowSize 0 in
  let temporalUnit := if isTimestamp then 2 else 1 in
  let freezePeriod := if isTimestamp then 3 * 60 else 10 in
  let reservedWindowSize := if isTimestamp then 5 * 60 else 16 in
  let claimWindowSize := if isTimestamp then 60 * 60 else 255 in
  let feeRecipient := "0x0" in
  encodeInput
    {| _addressArgs := [fromAddress; feeRecipient; toAddress];
       _uintArgs :=
         [ JsBN EAC_SCHEDULING_CONFIG.FEE;
           JsBN timeBounty;
           JsNumber claimWindowSize;
           JsNumber freezePeriod;
           JsNumber reservedWindowSize;
           JsNumber temporalUnit;
           JsBN windowSize;
           JsNumber windowStart;
           JsBN callGas;
           callValue;
           JsBN gasPrice;
           JsBN requiredDeposit ];
       _callData := callData;
       _endowment := endowment |}.

End Encoders.

Arguments getScheduleData {Payload} toBuffer simpleEncode toAddress callData
  callGas callValue windowSize windowStart callGasPrice timeBounty
  requiredDeposit.

(** ** Reference definitions for the statements *)

(** The time bounty the cost formula works with: the given one, or the
    configured minimum when none is given. *)
Definition effectiveTimeBounty (timeBounty : option BN) : BN :=
  or_else timeBounty EAC_SCHEDULING_CONFIG.TIME_BOUNTY_MIN.

(** Modelled from the spec: the conversion [gasPriceToBase] of [../units]
    performs, from Gwei to the base unit (wei), one Gwei being [10^9] wei.
    Used to run [calcEACEndowment] on concrete numbers. *)
Definition gweiToBase (price : Z) : BN := price * 10 ^ 9.

(** A present number below zero. *)
Definition negative (x : option BN) : bool :=
  match x with
  | Some v => v <? 0
  | None => false
  end.

(** A present number that needs more than 256 bits. *)
Definition exceeds_256_bits (x : option BN) : bool :=
  match x with
  | Some v => 2 ^ 256 <=? v
  | None => false
  end.

(** The deposit that reaches the encoder: zero when the given one is absent
    or negative. *)
Definition clampedDeposit (requiredDeposit : option BN) : BN :=
  match requiredDeposit with
  | Some deposit => Z.max deposit 0
  | None => 0
  end.

(** The bytes that reach the encoder as call data. *)
Definition callDataBuffer (toBuffer : string -> Buffer)
    (callData : option CallData) : Buffer :=
  match callData with
  | None => toBuffer ""
  | Some (CallDataString s) => toBuffer s
  | Some (CallDataBuffer b) => b
  end.

(** The encoder call a schedule request ends with: the signature, the target
    address, the call data bytes and the eight numbers in the order of the
    contract's [uint[8]]. *)
Definition scheduleCall {Payload : Type} (toBuffer : string -> Buffer)
    (simpleEncode : string -> string -> Buffer -> list JsValue -> Payload)
    (toAddress : string) (callData : option CallData)
    (callGas callValue windowSize : BN) (windowStart : JsValue)
    (callGasPrice timeBounty : BN) (requiredDeposit : option BN) : Payload :=
  simpleEncode "schedule(address,bytes,uint[8]):(address)" toAddress
    (callDataBuffer toBuffer callData)
    [ JsBN callGas; JsBN callValue; JsBN windowSize; windowStart;
      JsBN callGasPrice; JsBN EAC_SCHEDULING_CONFIG.FEE; JsBN timeBounty;
      JsBN (clampedDeposit requiredDeposit) ].

(** The preconditions of the schedule-call encoder as the specification words
    them: one of the six numbers is absent, or the time bounty, the gas price
    or the window size is negative, or the window size exceeds 256 bits. *)
Definition spec_declines
    (callGas callValue windowSize : option BN) (windowStart : JsValue)
    (callGasPrice timeBounty : option BN) : bool :=
  is_null callValue || is_null callGas || is_null callGasPrice
  || absent windowStart
  || is_null windowSize || is_null timeBounty
  || negative timeBounty || negative callGasPrice || negative windowSize
  || exceeds_256_bits windowSize.

(** The same, with the test the code makes on [windowStart]: any falsy value
    ([null], [undefined], the number zero, [NaN], the empty string, [false])
    counts as a missing window start. *)
Definition declines
    (callGas callValue windowSize : option BN) (windowStart : JsValue)
    (callGasPrice timeBounty : option BN) : bool :=
  is_null callValue || is_null callGas || is_null callGasPrice
  || negb (truthy windowStart)
  || is_null windowSize || is_null timeBounty
  || negative timeBounty || negative callGasPrice || negative windowSize
  || exceeds_256_bits windowSize.

(** The names of [names] at the positions where [flags] holds [false], in
    order. *)
Fixpoint names_at_false (names : list string) (flags : list bool)
    : list string :=
  match names, flags with
  | name :: names', flag :: flags' =>
      if flag then names_at_false names' flags'
      else name :: names_at_false names' flags'
  | _, _ => []
  end.

(** An [abi.simpleEncode] call, as data. *)
Record EncodeCall : Type := {
  call_signature : string;
  call_address : string;
  call_data : Buffer;
  call_uints : list JsValue
}.

(** An encoder that answers with the call it received; it makes the arguments
    of the call observable when the encoders are run. *)
Definition recordCall (signature toAddress : string) (callData : Buffer)
    (uintArgs : list JsValue) : EncodeCall :=
  {| call_signature := signature;
     call_address := toAddress;
     call_data := callData;
     call_uints := uintArgs |}.

(** A [toBuffer] to run the encoders with: the bytes of the string. *)
Definition bytesOfString (s : string) : Buffer := list_byte_of_string s.

(** The outcome of an encoder that may refuse its arguments: the encoded
    call, or the exception it throws. *)
Inductive EncodeOutcome : Type :=
  | Encoded (call : EncodeCall)
  | EncoderThrows (message : string).

(** A number below zero among the arguments for a [uint]. *)
Definition negativeUint (v : JsValue) : bool :=
  match v with
  | JsBN n | JsNumber n => n <? 0
  | _ => false
  end.

(** An encoder that refuses, as an ABI encoder does for a [uint], a negative
    number, and answers every other call with the call it received. *)
Definition uintCheckingEncoder (signature toAddress : string)
    (callData : Buffer) (uintArgs : list JsValue) : EncodeOutcome :=
  if existsb negativeUint uintArgs
  then EncoderThrows "Supplied uint is negative"
  else Encoded (recordCall signature toAddress callData uintArgs).

(** ** Addresses and status page *)

Module EAC_ADDRESSES.
Module KOVAN.
Definition blockScheduler : string :=
  "0x1afc19a7e642761ba2b55d2a45b32c7ef08269d1".
Definition requestFactory : string :=
  "0x496e2b6089bde77293a994469b08e9f266d87adb".
Definition timestampScheduler : string :=
  "0xc6370807f0164bdf10a66c08d0dab1028dbe80a3".
End KOVAN.
End EAC_ADDRESSES.

(** The template literal
    [`${EAC_SCHEDULING_CONFIG.DAPP_ADDRESS}/awaiting/scheduler/${txHash}`]. *)
Definition getTXDetailsCheckURL (txHash : string) : string :=
  (EAC_SCHEDULING_CONFIG.DAPP_ADDRESS ++ "/awaiting/scheduler/" ++ txHash)
  %string.

(** [x === s] for [x: string | null]. *)
Definition strict_eq (x : option string) (s : string) : bool :=
  match x with
  | Some v => String.eqb v s
  | None => false
  end.

Section Addresses.

(** [Address] of [../units] turns the text of an address into the value the
    rest of the application works with; it is imported, not defined, here. *)
Variable AddressValue : Type.
Variable Address : string -> AddressValue.

Definition getSchedulerAddress (scheduleType : option string)
    : AddressValue :=
  Address
    (if strict_eq scheduleType "time"
     then EAC_ADDRESSES.KOVAN.timestampScheduler
     else EAC_ADDRESSES.KOVAN.blockScheduler).

End Addresses.

Arguments getSchedulerAddress {AddressValue} Address scheduleType.

(** The number of flags of a validity report that are false. *)
Definition falseFlags (isValid : list bool) : nat :=
  List.length (filter negb isValid).

(** ** Cost formulas: results *)

Lemma or_else_Some (v d : BN) : or_else (Some v) d = v.
Proof. reflexivity. Qed.

Lemma or_else_None (d : BN) : or_else None d = d.
Proof. reflexivity. Qed.

Lemma futureExecutionCost_unfold (callGas callGasPrice : BN)
    (timeBounty : option BN) :
  calcEACFutureExecutionCost callGas callGasPrice timeBounty
  = effectiveTimeBounty timeBounty + 4484000000000000
    + (callGas + 180000) * callGasPrice.
Proof.
  unfold calcEACFutureExecutionCost, effectiveTimeBounty.
  destruct timeBounty as [given|]; reflexivity.
Qed.

(** C3.  [calcEACFutureExecutionCost] is a total function and returns
    effective time bounty + FEE * FEE_MULTIPLIER
    + (callGas + FUTURE_EXECUTION_COST) * callGasPrice, the effective time
    bounty being the given one or [TIME_BOUNTY_MIN] when it is [null]; a
    [null] time bounty gives the same cost as [TIME_BOUNTY_MIN].  This holds
    for every [BN], the non-negative ones included. *)
Theorem futureExecutionCost_formula :
  forall (callGas callGasPrice : BN) (timeBounty : option BN),
    calcEACFutureExecutionCost callGas callGasPrice timeBounty
    = effectiveTimeBounty timeBounty
      + EAC_SCHEDULING_CONFIG.FEE * EAC_SCHEDULING_CONFIG.FEE_MULTIPLIER
      + (callGas + EAC_SCHEDULING_CONFIG.FUTURE_EXECUTION_COST) * callGasPrice
    /\ effectiveTimeBounty None = TIME_BOUNTY_MIN
    /\ (forall given, effectiveTimeBounty (Some given) = given)
    /\ calcEACFutureExecutionCost callGas callGasPrice None
       = calcEACFutureExecutionCost callGas callGasPrice
           (Some TIME_BOUNTY_MIN).
Proof.
  intros callGas callGasPrice timeBounty.
  split; [|split; [reflexivity|split; [reflexivity|reflexivity]]].
  unfold calcEACFutureExecutionCost, effectiveTimeBounty.
  destruct timeBounty as [given|]; reflexivity.
Qed.

(** C4.  [calcEACEndowment] takes zero for an absent call value, the fallback
    gas limit (21000) for an absent call gas, the fallback gas price (20 Gwei)
    passed through [gasPriceToBase] for an absent gas price, and returns the
    resolved call value plus the future execution cost of the resolved gas,
    the resolved gas price and the time bounty. *)
Theorem endowment_defaults :
  forall (gasPriceToBase : Z -> BN)
         (callGas callValue callGasPrice : option BN) (timeBounty : BN),
    let resolvedCallValue :=
      match callValue with Some v => v | None => 0 end in
    let resolvedCallGas :=
      match callGas with
      | Some g => g
      | None => EAC_SCHEDULING_CONFIG.SCHEDULE_GAS_LIMIT_FALLBACK
      end in
    let resolvedCallGasPrice :=
      match callGasPrice with
      | Some p => p
      | None =>
          gasPriceToBase EAC_SCHEDULING_CONFIG.SCHEDULE_GAS_PRICE_FALLBACK
      end in
    calcEACEndowment gasPriceToBase callGas callValue callGasPrice timeBounty
    = resolvedCallValue
      + calcEACFutureExecutionCost resolvedCallGas resolvedCallGasPrice
          (Some timeBounty)
    /\ EAC_SCHEDULING_CONFIG.SCHEDULE_GAS_LIMIT_FALLBACK = 21000
    /\ EAC_SCHEDULING_CONFIG.SCHEDULE_GAS_PRICE_FALLBACK = 20
    /\ calcEACEndowment gweiToBase None None None timeBounty
       = 0 + (timeBounty + 4484000000000000
              + (21000 + 180000) * 20000000000).
Proof.
  intros gasPriceToBase callGas callValue callGasPrice timeBounty.
  cbv zeta.
  split; [|split; [reflexivity|split; [reflexivity|]]].
  - unfold calcEACEndowment.
    destruct callGas, callValue, callGasPrice; reflexivity.
  - unfold calcEACEndowment.
    rewrite !or_else_None, futureExecutionCost_unfold.
    reflexivity.
Qed.

(** C5.  [calcEACTotalCost] is deploymentGasPrice * SCHEDULING_GAS_LIMIT plus
    the future execution cost, in exact integer arithmetic; on the sample
    21000 gas, 20 Gwei deployment gas price, 20 Gwei call gas price and a time
    bounty of 1 wei it is 38504000000000001 wei. *)
Theorem totalCost_formula :
  forall (callGas deploymentGasPrice callGasPrice : BN)
         (timeBounty : option BN),
    calcEACTotalCost callGas deploymentGasPrice callGasPrice timeBounty
    = deploymentGasPrice * EAC_SCHEDULING_CONFIG.SCHEDULING_GAS_LIMIT
      + calcEACFutureExecutionCost callGas callGasPrice timeBounty
    /\ calcEACTotalCost callGas deploymentGasPrice callGasPrice timeBounty
       = deploymentGasPrice * 1500000
         + (effectiveTimeBounty timeBounty + 4484000000000000
            + (callGas + 180000) * callGasPrice)
    /\ calcEACTotalCost 21000 (20 * 10 ^ 9) (20 * 10 ^ 9) (Some 1)
       = 38504000000000001.
Proof.
  intros callGas deploymentGasPrice callGasPrice timeBounty.
  split; [reflexivity|split; [|reflexivity]].
  unfold calcEACTotalCost.
  rewrite futureExecutionCost_unfold.
  reflexivity.
Qed.

Lemma endowment_unfold (gasPriceToBase : Z -> BN)
    (callGas callValue callGasPrice timeBounty : BN) :
  calcEACEndowment gasPriceToBase
    (Some callGas) (Some callValue) (Some callGasPrice) timeBounty
  = callValue
    + (timeBounty + 4484000000000000 + (callGas + 180000) * callGasPrice).
Proof.
  unfold calcEACEndowment.
  rewrite !or_else_Some, futureExecutionCost_unfold.
  reflexivity.
Qed.

(** C6.  On non-negative numbers [calcEACEndowment] does not decrease when
    one of call value, call gas, call gas price and time bounty grows and the
    other three stay as they are. *)
Theorem endowment_monotone :
  forall (gasPriceToBase : Z -> BN)
         (callGas callValue callGasPrice timeBounty bigger : BN),
    0 <= callGas -> 0 <= callValue -> 0 <= callGasPrice -> 0 <= timeBounty ->
    let endowment g v p t :=
      calcEACEndowment gasPriceToBase (Some g) (Some v) (Some p) t in
    (callValue <= bigger ->
     endowment callGas callValue callGasPrice timeBounty
     <= endowment callGas bigger callGasPrice timeBounty)
    /\ (callGas <= bigger ->
        endowment callGas callValue callGasPrice timeBounty
        <= endowment bigger callValue callGasPrice timeBounty)
    /\ (callGasPrice <= bigger ->
        endowment callGas callValue callGasPrice timeBounty
        <= endowment callGas callValue bigger timeBounty)
    /\ (timeBounty <= bigger ->
        endowment callGas callValue callGasPrice timeBounty
        <= endowment callGas callValue callGasPrice bigger).
Proof.
  intros gasPriceToBase callGas callValue callGasPrice timeBounty bigger
    Hgas Hvalue Hprice Hbounty endowment.
  subst endowment; cbv beta.
  rewrite !endowment_unfold.
  repeat split; intros Hle; nia.
Qed.

Lemma endowment_monotone_witness :
  calcEACEndowment gweiToBase (Some 21000) (Some 5) (Some 20000000000) 1
  <= calcEACEndowment gweiToBase (Some 30000) (Some 5) (Some 20000000000) 1.
Proof.
  apply (endowment_monotone gweiToBase 21000 5 20000000000 1 30000); lia.
Defined.

(** ** Schedule-call encoder: results *)

Lemma bitLength_over_256 (x : BN) :
  0 <= x -> (256 <? bitLength x) = (2 ^ 256 <=? x).
Proof.
  intros Hx. unfold bitLength.
  destruct (Z.eqb_spec x 0) as [->|Hnz]; [reflexivity|].
  rewrite Z.abs_eq by assumption.
  assert (Hpos : 0 < x) by lia.
  pose proof (Z.log2_le_pow2 x 256 Hpos) as Hlog.
  destruct (Z.leb_spec (2 ^ 256) x) as [Hbig|Hsmall];
    destruct (Z.ltb_spec 256 (Z.log2 x + 1)) as [Hlong|Hshort];
    try reflexivity; exfalso.
  - apply Hlog in Hbig. lia.
  - assert (Hle : 256 <= Z.log2 x) by lia.
    apply Hlog in Hle. lia.
Qed.

Lemma clampedDeposit_code (requiredDeposit : option BN) :
  match requiredDeposit with
  | None => 0
  | Some deposit => if lt deposit 0 then 0 else deposit
  end = clampedDeposit requiredDeposit.
Proof.
  destruct requiredDeposit as [deposit|]; [|reflexivity].
  unfold lt, clampedDeposit.
  destruct (Z.ltb_spec deposit 0); lia.
Qed.

Lemma guard_declines (windowSize callGasPrice timeBounty : BN) :
  lt timeBounty 0 || lt callGasPrice 0 || lt windowSize 0
  || (256 <? bitLength windowSize)
  = (timeBounty <? 0) || (callGasPrice <? 0) || (windowSize <? 0)
    || (2 ^ 256 <=? windowSize).
Proof.
  unfold lt.
  destruct (Z.ltb_spec windowSize 0) as [Hneg|Hnonneg].
  - rewrite !orb_true_r. reflexivity.
  - rewrite bitLength_over_256 by assumption. reflexivity.
Qed.

Lemma valid_guard (windowSize callGasPrice timeBounty : BN) :
  0 <= timeBounty -> 0 <= callGasPrice -> 0 <= windowSize < 2 ^ 256 ->
  (timeBounty <? 0) || (callGasPrice <? 0) || (windowSize <? 0)
  || (2 ^ 256 <=? windowSize) = false.
Proof.
  intros Hbounty Hprice Hsize.
  replace (timeBounty <? 0) with false by (symmetry; apply Z.ltb_ge; lia).
  replace (callGasPrice <? 0) with false by (symmetry; apply Z.ltb_ge; lia).
  replace (windowSize <? 0) with false by (symmetry; apply Z.ltb_ge; lia).
  replace (2 ^ 256 <=? windowSize) with false
    by (symmetry; apply Z.leb_gt; lia).
  reflexivity.
Qed.

Lemma clampedDeposit_zero (requiredDeposit : option BN) :
  (requiredDeposit = None
   \/ exists deposit, requiredDeposit = Some deposit /\ deposit < 0) ->
  clampedDeposit requiredDeposit = 0.
Proof.
  intros [-> | (deposit & -> & Hneg)]; [reflexivity|].
  unfold clampedDeposit. lia.
Qed.

Section ScheduleData.

Context {Payload : Type}.
Variable toBuffer : string -> Buffer.
Variable simpleEncode : string -> string -> Buffer -> list JsValue -> Payload.

Lemma getScheduleData_present toAddress callData callGas callValue windowSize
    windowStart callGasPrice timeBounty requiredDeposit :
  getScheduleData toBuffer simpleEncode toAddress callData
    (Some callGas) (Some callValue) (Some windowSize) windowStart
    (Some callGasPrice) (Some timeBounty) requiredDeposit
  = if negb (truthy windowStart)
       || ((timeBounty <? 0) || (callGasPrice <? 0) || (windowSize <? 0)
           || (2 ^ 256 <=? windowSize))
    then None
    else Some (scheduleCall toBuffer simpleEncode toAddress callData
                 callGas callValue windowSize windowStart callGasPrice
                 timeBounty requiredDeposit).
Proof.
  unfold getScheduleData, scheduleCall, callDataBuffer.
  rewrite clampedDeposit_code, guard_declines.
  destruct (truthy windowStart); reflexivity.
Qed.

Lemma getScheduleData_declined toAddress callData callGas callValue windowSize
    windowStart callGasPrice timeBounty requiredDeposit :
  declines callGas callValue windowSize windowStart callGasPrice timeBounty
  = true ->
  getScheduleData toBuffer simpleEncode toAddress callData
    callGas callValue windowSize windowStart callGasPrice timeBounty
    requiredDeposit = None.
Proof.
  destruct callValue as [value|]; [|reflexivity].
  destruct callGas as [gas|]; [|reflexivity].
  destruct callGasPrice as [price|]; [|reflexivity].
  destruct windowSize as [size|];
    [|intros _; unfold getScheduleData;
      destruct (truthy windowStart), timeBounty; reflexivity].
  destruct timeBounty as [bounty|];
    [|intros _; unfold getScheduleData;
      destruct (truthy windowStart); reflexivity].
  rewrite getScheduleData_present.
  unfold declines, is_null, negative, exceeds_256_bits.
  rewrite !orb_false_l, !orb_false_r, <- !orb_assoc.
  intros ->. reflexivity.
Qed.

Lemma getScheduleData_accepted toAddress callData callGas callValue windowSize
    windowStart callGasPrice timeBounty requiredDeposit :
  declines callGas callValue windowSize windowStart callGasPrice timeBounty
  = false ->
  exists gas value size price bounty,
    callGas = Some gas /\ callValue = Some value /\ windowSize = Some size
    /\ callGasPrice = Some price /\ timeBounty = Some bounty
    /\ getScheduleData toBuffer simpleEncode toAddress callData
         callGas callValue windowSize windowStart callGasPrice timeBounty
         requiredDeposit
       = Some (scheduleCall toBuffer simpleEncode toAddress callData
                 gas value size windowStart price bounty requiredDeposit).
Proof.
  destruct callValue as [value|]; [|discriminate].
  destruct callGas as [gas|]; [|discriminate].
  destruct callGasPrice as [price|]; [|discriminate].
  destruct windowSize as [size|];
    [|unfold declines; cbn [is_null orb];
      rewrite orb_true_r; discriminate].
  destruct timeBounty as [bounty|];
    [|unfold declines; cbn [is_null orb];
      rewrite orb_true_r; discriminate].
  intros Hok.
  exists gas, value, size, price, bounty.
  repeat (split; [reflexivity|]).
  rewrite getScheduleData_present.
  unfold declines, is_null, negative, exceeds_256_bits in Hok.
  rewrite !orb_false_l, !orb_false_r, <- !orb_assoc in Hok.
  rewrite <- !orb_assoc, Hok. reflexivity.
Qed.

Lemma falsy_values (v : JsValue) :
  truthy v = false
  <-> v = JsUndefined \/ v = JsNull \/ v = JsBool false \/ v = JsNumber 0
      \/ v = JsNaN \/ v = JsString "".
Proof.
  split.
  - destruct v as [| |b|n| |s|bn]; cbn [truthy]; intros Hfalsy.
    + now left.
    + now right; left.
    + subst b. now right; right; left.
    + apply negb_false_iff, Z.eqb_eq in Hfalsy. subst n.
      now right; right; right; left.
    + now right; right; right; right; left.
    + apply negb_false_iff, String.eqb_eq in Hfalsy. subst s.
      now right; right; right; right; right.
    + discriminate.
  - intros [-> | [-> | [-> | [-> | [-> | ->]]]]]; reflexivity.
Qed.

(** C1, as the code has it.  [getScheduleData] returns no result, without
    throwing, exactly when one of callValue, callGas, callGasPrice,
    windowSize, timeBounty is [null], or windowStart is falsy (absent, or
    [false], the number zero, [NaN], the empty string), or timeBounty,
    callGasPrice or windowSize is negative, or windowSize needs more than 256
    bits.  Otherwise its outcome is that of the encoder, called with the
    schedule signature, the target address, the call data bytes and the
    eight numbers callGas, callValue, windowSize, windowStart, callGasPrice,
    FEE, timeBounty and the clamped deposit. *)
Theorem getScheduleData_declines :
  forall toAddress callData callGas callValue windowSize windowStart
         callGasPrice timeBounty requiredDeposit,
    let result :=
      getScheduleData toBuffer simpleEncode toAddress callData callGas
        callValue windowSize windowStart callGasPrice timeBounty
        requiredDeposit in
    (result = None
     <-> declines callGas callValue windowSize windowStart callGasPrice
           timeBounty = true)
    /\ ((exists payload, result = Some payload)
        <-> declines callGas callValue windowSize windowStart callGasPrice
              timeBounty = false)
    /\ (declines callGas callValue windowSize windowStart callGasPrice
          timeBounty = true
        <-> callValue = None \/ callGas = None \/ callGasPrice = None
            \/ truthy windowStart = false
            \/ windowSize = None \/ timeBounty = None
            \/ (exists bounty, timeBounty = Some bounty /\ bounty < 0)
            \/ (exists price, callGasPrice = Some price /\ price < 0)
            \/ (exists size, windowSize = Some size /\ size < 0)
            \/ (exists size, windowSize = Some size /\ 2 ^ 256 <= size))
    /\ (truthy windowStart = false
        <-> windowStart = JsUndefined \/ windowStart = JsNull
            \/ windowStart = JsBool false \/ windowStart = JsNumber 0
            \/ windowStart = JsNaN \/ windowStart = JsString "")
    /\ (declines callGas callValue windowSize windowStart callGasPrice
          timeBounty = false ->
        exists gas value size price bounty,
          callGas = Some gas /\ callValue = Some value
          /\ windowSize = Some size /\ callGasPrice = Some price
          /\ timeBounty = Some bounty
          /\ result
             = Some (simpleEncode "schedule(address,bytes,uint[8]):(address)"
                       toAddress (callDataBuffer toBuffer callData)
                       [ JsBN gas;
                         JsBN value;
                         JsBN size;
                         windowStart;
                         JsBN price;
                         JsBN EAC_SCHEDULING_CONFIG.FEE;
                         JsBN bounty;
                         JsBN (clampedDeposit requiredDeposit) ])).
Proof.
  intros toAddress callData callGas callValue windowSize windowStart
    callGasPrice timeBounty requiredDeposit result.
  subst result.
  assert (Hexact :
    declines callGas callValue windowSize windowStart callGasPrice
      timeBounty = false ->
    exists gas value size price bounty,
      callGas = Some gas /\ callValue = Some value
      /\ windowSize = Some size /\ callGasPrice = Some price
      /\ timeBounty = Some bounty
      /\ getScheduleData toBuffer simpleEncode toAddress callData callGas
           callValue windowSize windowStart callGasPrice timeBounty
           requiredDeposit
         = Some (simpleEncode "schedule(address,bytes,uint[8]):(address)"
                   toAddress (callDataBuffer toBuffer callData)
                   [ JsBN gas; JsBN value; JsBN size; windowStart;
                     JsBN price; JsBN EAC_SCHEDULING_CONFIG.FEE;
                     JsBN bounty; JsBN (clampedDeposit requiredDeposit) ])).
  { intros Hok.
    apply (getScheduleData_accepted toAddress callData _ _ _ _ _ _
             requiredDeposit Hok). }
  assert (Hfalsy := falsy_values windowStart).
  destruct (declines callGas callValue windowSize windowStart callGasPrice
              timeBounty) eqn:Hdeclines.
  - clear Hexact.
    rewrite (getScheduleData_declined _ _ _ _ _ _ _ _ _ Hdeclines).
    split; [tauto|]. split; [|split; [|split; [exact Hfalsy|discriminate]]].
    + split; [intros [payload Hsome]|]; discriminate.
    + split; [intros _|reflexivity].
      clear Hfalsy.
      revert Hdeclines. unfold declines.
      rewrite !orb_true_iff, negb_true_iff.
      unfold is_null, negative, exceeds_256_bits.
      destruct callValue as [value|]; [|tauto].
      destruct callGas as [gas|]; [|tauto].
      destruct callGasPrice as [price|]; [|tauto].
      destruct windowSize as [size|]; [|tauto].
      destruct timeBounty as [bounty|]; [|tauto].
      rewrite !Z.ltb_lt, Z.leb_le.
      intros Hcases.
      repeat destruct Hcases as [Hcases|Hcases];
        try discriminate; eauto 12.
  - destruct (Hexact eq_refl)
      as (gas & value & size & price & bounty
          & Hgas & Hvalue & Hsize & Hprice & Hbounty & Hres).
    split; [rewrite Hres; split; discriminate|].
    split; [split; [reflexivity|intros _; rewrite Hres; eauto]|].
    split; [|split; [exact Hfalsy|exact Hexact]].
    clear Hexact Hres Hfalsy. subst.
    split; [discriminate|].
    revert Hdeclines. unfold declines, is_null, negative, exceeds_256_bits.
    rewrite !orb_false_l, !orb_false_iff, negb_false_iff.
    intros ((((((Htruthy & _) & _) & Hbounty) & Hprice) & Hsize) & Hbits).
    apply Z.ltb_ge in Hbounty, Hprice, Hsize.
    apply Z.leb_gt in Hbits.
    intros [H|[H|[H|[H|[H|[H|[H|[H|[H|H]]]]]]]]];
      try congruence;
      destruct H as (x & Heq & Hx); injection Heq as <-; lia.
Qed.

(** C2.  On a valid input the eight numbers handed to the encoder after the
    target address and the call data are, in this order: callGas, callValue,
    windowSize, windowStart, callGasPrice, the FEE constant, timeBounty and
    requiredDeposit (the given deposit when it is non-negative, zero
    otherwise). *)
Theorem schedule_uint_args_order :
  forall toAddress callData callGas callValue windowSize windowStart
         callGasPrice timeBounty requiredDeposit,
    truthy windowStart = true ->
    0 <= timeBounty -> 0 <= callGasPrice -> 0 <= windowSize < 2 ^ 256 ->
    getScheduleData toBuffer simpleEncode toAddress callData
      (Some callGas) (Some callValue) (Some windowSize) windowStart
      (Some callGasPrice) (Some timeBounty) requiredDeposit
    = Some (simpleEncode "schedule(address,bytes,uint[8]):(address)"
              toAddress (callDataBuffer toBuffer callData)
              [ JsBN callGas;
                JsBN callValue;
                JsBN windowSize;
                windowStart;
                JsBN callGasPrice;
                JsBN EAC_SCHEDULING_CONFIG.FEE;
                JsBN timeBounty;
                JsBN (clampedDeposit requiredDeposit) ])
    /\ (forall deposit, 0 <= deposit -> clampedDeposit (Some deposit) = deposit).
Proof.
  intros toAddress callData callGas callValue windowSize windowStart
    callGasPrice timeBounty requiredDeposit Htruthy Hbounty Hprice Hsize.
  split.
  - rewrite getScheduleData_present, Htruthy.
    replace (timeBounty <? 0) with false by (symmetry; apply Z.ltb_ge; lia).
    replace (callGasPrice <? 0) with false by (symmetry; apply Z.ltb_ge; lia).
    replace (windowSize <? 0) with false by (symmetry; apply Z.ltb_ge; lia).
    replace (2 ^ 256 <=? windowSize) with false
      by (symmetry; apply Z.leb_gt; lia).
    reflexivity.
  - intros deposit Hdeposit. unfold clampedDeposit. lia.
Qed.

(** C7.  The required deposit is clamped, not rejected: on an otherwise valid
    request an absent or negative deposit, -5 for one, does not stop the
    call; the encoder is called with zero as eighth number, exactly as for a
    deposit of zero.  Whatever the other arguments, valid or not, such a
    deposit gives the very result a deposit of zero gives. *)
Theorem requiredDeposit_clamped :
  forall toAddress callData (callGas callValue windowSize : BN) windowStart
         (callGasPrice timeBounty : BN) requiredDeposit,
    truthy windowStart = true ->
    0 <= timeBounty -> 0 <= callGasPrice -> 0 <= windowSize < 2 ^ 256 ->
    (requiredDeposit = None
     \/ exists deposit, requiredDeposit = Some deposit /\ deposit < 0) ->
    let encodedWithZero :=
      Some (simpleEncode "schedule(address,bytes,uint[8]):(address)"
              toAddress (callDataBuffer toBuffer callData)
              [ JsBN callGas;
                JsBN callValue;
                JsBN windowSize;
                windowStart;
                JsBN callGasPrice;
                JsBN EAC_SCHEDULING_CONFIG.FEE;
                JsBN timeBounty;
                JsBN 0 ]) in
    getScheduleData toBuffer simpleEncode toAddress callData
      (Some callGas) (Some callValue) (Some windowSize) windowStart
      (Some callGasPrice) (Some timeBounty) requiredDeposit
    = encodedWithZero
    /\ getScheduleData toBuffer simpleEncode toAddress callData
         (Some callGas) (Some callValue) (Some windowSize) windowStart
         (Some callGasPrice) (Some timeBounty) (Some (-5))
       = encodedWithZero
    /\ getScheduleData toBuffer simpleEncode toAddress callData
         (Some callGas) (Some callValue) (Some windowSize) windowStart
         (Some callGasPrice) (Some timeBounty) (Some 0)
       = encodedWithZero
    /\ (forall (anyGas anyValue anySize : option BN) (anyStart : JsValue)
               (anyPrice anyBounty : option BN),
          getScheduleData toBuffer simpleEncode toAddress callData anyGas
            anyValue anySize anyStart anyPrice anyBounty requiredDeposit
          = getScheduleData toBuffer simpleEncode toAddress callData anyGas
              anyValue anySize anyStart anyPrice anyBounty (Some 0)
          /\ getScheduleData toBuffer simpleEncode toAddress callData anyGas
               anyValue anySize anyStart anyPrice anyBounty (Some (-5))
             = getScheduleData toBuffer simpleEncode toAddress callData
                 anyGas anyValue anySize anyStart anyPrice anyBounty
                 (Some 0)).
Proof.
  intros toAddress callData callGas callValue windowSize windowStart
    callGasPrice timeBounty requiredDeposit Htruthy Hbounty Hprice Hsize
    Hclamped encodedWithZero.
  subst encodedWithZero.
  assert (Hencoded : forall deposit : option BN,
    clampedDeposit deposit = 0 ->
    getScheduleData toBuffer simpleEncode toAddress callData
      (Some callGas) (Some callValue) (Some windowSize) windowStart
      (Some callGasPrice) (Some timeBounty) deposit
    = Some (simpleEncode "schedule(address,bytes,uint[8]):(address)"
              toAddress (callDataBuffer toBuffer callData)
              [ JsBN callGas; JsBN callValue; JsBN windowSize; windowStart;
                JsBN callGasPrice; JsBN EAC_SCHEDULING_CONFIG.FEE;
                JsBN timeBounty; JsBN 0 ])).
  { intros deposit Hzero.
    rewrite getScheduleData_present, Htruthy.
    rewrite valid_guard by assumption.
    unfold scheduleCall. rewrite Hzero. reflexivity. }
  split; [apply Hencoded, clampedDeposit_zero, Hclamped|].
  split; [apply Hencoded; reflexivity|].
  split; [apply Hencoded; reflexivity|].
  intros anyGas anyValue anySize anyStart anyPrice anyBounty.
  split; [|reflexivity].
  destruct Hclamped as [-> | (deposit & -> & Hneg)]; [reflexivity|].
  unfold getScheduleData, lt.
  replace (deposit <? 0) with true by (symmetry; apply Z.ltb_lt; exact Hneg).
  reflexivity.
Qed.

(** C10.  A window start that is the number zero is taken for a missing one:
    whatever the other arguments, [getScheduleData] returns no result, as it
    does for a [null] or [undefined] window start. *)
Theorem windowStart_zero_declines :
  forall toAddress callData callGas callValue windowSize callGasPrice
         timeBounty requiredDeposit,
    getScheduleData toBuffer simpleEncode toAddress callData callGas
      callValue windowSize (JsNumber 0) callGasPrice timeBounty
      requiredDeposit = None
    /\ getScheduleData toBuffer simpleEncode toAddress callData callGas
         callValue windowSize JsNull callGasPrice timeBounty
         requiredDeposit = None
    /\ getScheduleData toBuffer simpleEncode toAddress callData callGas
         callValue windowSize JsUndefined callGasPrice timeBounty
         requiredDeposit = None.
Proof.
  intros toAddress callData callGas callValue windowSize callGasPrice
    timeBounty requiredDeposit.
  repeat split;
    apply getScheduleData_declined;
    unfold declines; cbn [truthy negb Z.eqb];
    rewrite !orb_true_r; reflexivity.
Qed.

End ScheduleData.

Lemma getScheduleData_declines_witness :
  getScheduleData bytesOfString recordCall
    "0x1afc19a7e642761ba2b55d2a45b32c7ef08269d1" None
    (Some 21000) (Some 0) (Some 10) (JsNumber 100)
    (Some 20000000000) (Some 1) None
  = Some {| call_signature := "schedule(address,bytes,uint[8]):(address)";
            call_address := "0x1afc19a7e642761ba2b55d2a45b32c7ef08269d1";
            call_data := [];
            call_uints :=
              [ JsBN 21000; JsBN 0; JsBN 10; JsNumber 100;
                JsBN 20000000000; JsBN 2242000000000000; JsBN 1; JsBN 0 ] |}.
Proof.
  destruct (proj2 (proj2 (proj2 (proj2
    (getScheduleData_declines bytesOfString recordCall
       "0x1afc19a7e642761ba2b55d2a45b32c7ef08269d1" None
       (Some 21000) (Some 0) (Some 10) (JsNumber 100)
       (Some 20000000000) (Some 1) None)))) eq_refl)
    as (gas & value & size & price & bounty
        & Hgas & Hvalue & Hsize & Hprice & Hbounty & Hresult).
  injection Hgas as <-. injection Hvalue as <-. injection Hsize as <-.
  injection Hprice as <-. injection Hbounty as <-.
  exact Hresult.
Defined.

(** C1, as the specification words it, fails twice over.  With every number
    present and within bounds and the number zero as window start, none of
    the listed conditions holds and still there is no result.  And with all
    the listed conditions met, a negative call gas, which the guard does not
    look at, reaches the encoder: an encoder that refuses a negative [uint]
    throws, and no payload is produced. *)
Lemma getScheduleData_spec_declines_counterexample :
  ~ (getScheduleData bytesOfString recordCall
       "0x1afc19a7e642761ba2b55d2a45b32c7ef08269d1" None
       (Some 21000) (Some 0) (Some 10) (JsNumber 0)
       (Some 20000000000) (Some 1) (Some 0)
     = None
     <-> spec_declines (Some 21000) (Some 0) (Some 10) (JsNumber 0)
           (Some 20000000000) (Some 1) = true)
  /\ ~ (spec_declines (Some (-1)) (Some 0) (Some 10) (JsNumber 100)
          (Some 20000000000) (Some 1) = false ->
        exists call,
          getScheduleData bytesOfString uintCheckingEncoder
            "0x1afc19a7e642761ba2b55d2a45b32c7ef08269d1" None
            (Some (-1)) (Some 0) (Some 10) (JsNumber 100)
            (Some 20000000000) (Some 1) (Some 0)
          = Some (Encoded call)).
Proof.
  split.
  - intros [Hnone _].
    specialize (Hnone eq_refl).
    discriminate Hnone.
  - intros Hpayload.
    destruct (Hpayload eq_refl) as [call Hcall].
    discriminate Hcall.
Qed.

Lemma schedule_uint_args_order_witness :
  getScheduleData bytesOfString recordCall
    "0x1afc19a7e642761ba2b55d2a45b32c7ef08269d1"
    (Some (CallDataBuffer [x12; x34]))
    (Some 21000) (Some 7) (Some 10) (JsNumber 100)
    (Some 20000000000) (Some 1) (Some 3)
  = Some {| call_signature := "schedule(address,bytes,uint[8]):(address)";
            call_address := "0x1afc19a7e642761ba2b55d2a45b32c7ef08269d1";
            call_data := [x12; x34];
            call_uints :=
              [ JsBN 21000; JsBN 7; JsBN 10; JsNumber 100;
                JsBN 20000000000; JsBN 2242000000000000; JsBN 1; JsBN 3 ] |}.
Proof.
  apply (schedule_uint_args_order bytesOfString recordCall
           "0x1afc19a7e642761ba2b55d2a45b32c7ef08269d1"
           (Some (CallDataBuffer [x12; x34]))
           21000 7 10 (JsNumber 100) 20000000000 1 (Some 3)).
  - reflexivity.
  - lia.
  - lia.
  - split; [lia|reflexivity].
Defined.

Lemma requiredDeposit_clamped_witness :
  getScheduleData bytesOfString recordCall
    "0x1afc19a7e642761ba2b55d2a45b32c7ef08269d1" None
    (Some 21000) (Some 7) (Some 10) (JsNumber 100)
    (Some 20000000000) (Some 1) (Some (-5))
  = Some {| call_signature := "schedule(address,bytes,uint[8]):(address)";
            call_address := "0x1afc19a7e642761ba2b55d2a45b32c7ef08269d1";
            call_data := [];
            call_uints :=
              [ JsBN 21000; JsBN 7; JsBN 10; JsNumber 100;
                JsBN 20000000000; JsBN 2242000000000000; JsBN 1; JsBN 0 ] |}.
Proof.
  refine (proj1 (requiredDeposit_clamped bytesOfString recordCall
                   "0x1afc19a7e642761ba2b55d2a45b32c7ef08269d1" None
                   21000 7 10 (JsNumber 100) 20000000000 1 (Some (-5))
                   _ _ _ _ _)).
  - reflexivity.
  - lia.
  - lia.
  - split; [lia|reflexivity].
  - right. exists (-5). split; [reflexivity|lia].
Defined.

(** ** Validity report decoder: results *)

Lemma skipn_nth_error_cons {A : Type} (l : list A) (i : nat) (x : A) :
  nth_error l i = Some x -> skipn i l = x :: skipn (S i) l.
Proof.
  revert i. induction l as [|y l IH]; intros [|i] Hnth;
    cbn in Hnth; try discriminate.
  - injection Hnth as ->. reflexivity.
  - apply (IH i Hnth).
Qed.

Lemma names_at_false_nil (names : list string) : names_at_false names [] = [].
Proof. destruct names; reflexivity. Qed.

Lemma forEach_push_names (isValid : list bool) :
  forall (index : nat) (errors : list (option string)),
    (index + List.length isValid <= List.length Errors)%nat ->
    forEach_push isValid index errors
    = (errors ++ map Some (names_at_false (skipn index Errors) isValid))%list.
Proof.
  induction isValid as [|boolIsTrue rest IH]; intros index errors Hfits.
  - cbn [forEach_push]. rewrite names_at_false_nil, app_nil_r. reflexivity.
  - cbn [List.length] in Hfits.
    destruct (nth_error Errors index) as [name|] eqn:Hname.
    2:{ apply nth_error_None in Hname. lia. }
    cbn [forEach_push].
    rewrite IH by lia.
    rewrite (skipn_nth_error_cons _ _ _ Hname), Hname.
    cbn [names_at_false].
    destruct boolIsTrue; cbn [negb map].
    + reflexivity.
    + rewrite <- app_assoc. reflexivity.
Qed.

Lemma names_at_false_In (names : list string) :
  forall (flags : list bool) (name : string),
    In name (names_at_false names flags)
    <-> exists i, nth_error names i = Some name
                  /\ nth_error flags i = Some false.
Proof.
  induction names as [|first names' IH]; intros flags name.
  - split; [intros []|intros ([|i] & Hname & _); discriminate].
  - destruct flags as [|flag flags'].
    + split; [intros []|intros ([|i] & _ & Hflag); discriminate].
    + cbn [names_at_false].
      destruct flag; cbn [In]; rewrite IH; split.
      * intros (i & Hname & Hflag). exists (S i). split; assumption.
      * intros ([|i] & Hname & Hflag); [discriminate|].
        exists i. split; assumption.
      * intros [<- | (i & Hname & Hflag)].
        -- exists 0%nat. split; reflexivity.
        -- exists (S i). split; assumption.
      * intros ([|i] & Hname & Hflag).
        -- left. injection Hname as ->. reflexivity.
        -- right. exists i. split; assumption.
Qed.

(** C8.  On six flags [parseSchedulingParametersValidity] returns the error
    names at the positions whose flag is false, in the order of the list;
    six true flags give the empty list, and a false first and last flag give
    InsufficientEndowment followed by EmptyToAddress. *)
Theorem parseValidity_names_at_false :
  forall isValid : list bool,
    List.length isValid = 6%nat ->
    parseSchedulingParametersValidity isValid
    = map Some (names_at_false Errors isValid)
    /\ (forall name,
          In (Some name) (parseSchedulingParametersValidity isValid)
          <-> exists i, nth_error Errors i = Some name
                        /\ nth_error isValid i = Some false)
    /\ parseSchedulingParametersValidity [true; true; true; true; true; true]
       = []
    /\ parseSchedulingParametersValidity
         [false; true; true; true; true; false]
       = [Some "InsufficientEndowment"; Some "EmptyToAddress"].
Proof.
  intros isValid Hsix.
  assert (Hparse : parseSchedulingParametersValidity isValid
                   = map Some (names_at_false Errors isValid)).
  { unfold parseSchedulingParametersValidity.
    rewrite forEach_push_names by (rewrite Hsix; cbn; lia).
    reflexivity. }
  split; [exact Hparse|].
  split; [|split; reflexivity].
  intros name. rewrite Hparse, in_map_iff, <- names_at_false_In.
  split.
  - intros (found & Heq & Hin). injection Heq as ->. exact Hin.
  - intros Hin. exists name. split; [reflexivity|exact Hin].
Qed.

Lemma parseValidity_names_at_false_witness :
  parseSchedulingParametersValidity [true; false; true; false; true; true]
  = map Some ["ReservedWindowBiggerThanExecutionWindow";
              "ExecutionWindowTooSoon"].
Proof.
  apply (parseValidity_names_at_false
           [true; false; true; false; true; true]).
  reflexivity.
Defined.

(** ** Validation-request encoder: results *)

(** C9.  [getValidateRequestParamsData] derives from [isTimestamp] the
    temporal unit (2, else 1), the freeze period (180 seconds, else 10
    blocks), the reserved window (300 seconds, else 16 blocks) and the claim
    window (3600 seconds, else 255 blocks), and hands the encoder the twelve
    numbers FEE, timeBounty, claimWindowSize, freezePeriod,
    reservedWindowSize, temporalUnit, windowSize (zero when absent),
    windowStart, callGas, callValue, gasPrice, requiredDeposit, in this
    order. *)
Theorem validateRequest_uint_args_order :
  forall (encodeInput : ValidateRequestParamsInput -> string)
         (toAddress : string) (callData : option string) (callGas : BN)
         (callValue : JsValue) (windowSize : option BN) (windowStart : Z)
         (gasPrice timeBounty requiredDeposit : BN) (isTimestamp : bool)
         (endowment : BN) (fromAddress : string),
    let temporalUnit := if isTimestamp then 2 else 1 in
    let freezePeriod := if isTimestamp then 180 else 10 in
    let reservedWindowSize := if isTimestamp then 300 else 16 in
    let claimWindowSize := if isTimestamp then 3600 else 255 in
    getValidateRequestParamsData encodeInput toAddress callData callGas
      callValue windowSize windowStart gasPrice timeBounty requiredDeposit
      isTimestamp endowment fromAddress
    = encodeInput
        {| _addressArgs := [fromAddress; "0x0"; toAddress];
           _uintArgs :=
             [ JsBN EAC_SCHEDULING_CONFIG.FEE;
               JsBN timeBounty;
               JsNumber claimWindowSize;
               JsNumber freezePeriod;
               JsNumber reservedWindowSize;
               JsNumber temporalUnit;
               JsBN (match windowSize with Some size => size | None => 0 end);
               JsNumber windowStart;
               JsBN callGas;
               callValue;
               JsBN gasPrice;
               JsBN requiredDeposit ];
           _callData := match callData with Some s => s | None => "" end;
           _endowment := endowment |}.
Proof.
  intros encodeInput toAddress callData callGas callValue windowSize
    windowStart gasPrice timeBounty requiredDeposit isTimestamp endowment
    fromAddress.
  cbv zeta. unfold getValidateRequestParamsData, or_else.
  destruct isTimestamp; reflexivity.
Qed.

(** ** Further results: validity report decoder *)

Lemma forEach_push_app (front back : list bool) :
  forall (index : nat) (errors : list (option string)),
    forEach_push (front ++ back) index errors
    = forEach_push back (index + List.length front)
        (forEach_push front index errors).
Proof.
  induction front as [|flag front IH]; intros index errors.
  - cbn [app List.length forEach_push]. rewrite Nat.add_0_r. reflexivity.
  - cbn [app List.length forEach_push]. rewrite IH.
    replace (S index + List.length front)%nat
      with (index + S (List.length front))%nat by lia.
    reflexivity.
Qed.

Lemma forEach_push_beyond (isValid : list bool) :
  forall (index : nat) (errors : list (option string)),
    (List.length Errors <= index)%nat ->
    forEach_push isValid index errors
    = (errors ++ repeat None (falseFlags isValid))%list.
Proof.
  unfold falseFlags.
  induction isValid as [|flag rest IH]; intros index errors Hbeyond.
  - cbn. rewrite app_nil_r. reflexivity.
  - cbn [forEach_push].
    rewrite IH by lia.
    replace (nth_error Errors index) with (@None string)
      by (symmetry; apply nth_error_None; exact Hbeyond).
    destruct flag; cbn [negb filter List.length repeat].
    + reflexivity.
    + rewrite <- app_assoc. reflexivity.
Qed.

Lemma names_at_false_firstn (names : list string) :
  forall flags : list bool,
    names_at_false names (firstn (List.length names) flags)
    = names_at_false names flags.
Proof.
  induction names as [|name names IH]; intros flags.
  - reflexivity.
  - destruct flags as [|flag flags]; [reflexivity|].
    cbn [List.length firstn names_at_false].
    rewrite IH. reflexivity.
Qed.

Lemma forEach_push_length (isValid : list bool) :
  forall (index : nat) (errors : list (option string)),
    List.length (forEach_push isValid index errors)
    = (List.length errors + falseFlags isValid)%nat.
Proof.
  unfold falseFlags.
  induction isValid as [|flag rest IH]; intros index errors.
  - cbn. lia.
  - cbn [forEach_push]. rewrite IH.
    destruct flag; cbn [negb filter List.length].
    + reflexivity.
    + rewrite length_app. cbn [List.length]. lia.
Qed.

Lemma names_at_false_incl (names : list string) :
  forall (flags : list bool) (name : string),
    In name (names_at_false names flags) -> In name names.
Proof.
  intros flags name Hin.
  apply names_at_false_In in Hin.
  destruct Hin as (i & Hname & _).
  apply (nth_error_In _ _ Hname).
Qed.

Lemma names_at_false_NoDup (names : list string) :
  NoDup names -> forall flags, NoDup (names_at_false names flags).
Proof.
  induction 1 as [|name names Hfresh Hnodup IH]; intros flags.
  - constructor.
  - destruct flags as [|flag flags]; [constructor|].
    cbn [names_at_false].
    destruct flag; [apply IH|].
    constructor; [|apply IH].
    intros Hin. apply Hfresh. apply (names_at_false_incl _ _ _ Hin).
Qed.

Lemma Errors_NoDup : NoDup Errors.
Proof.
  unfold Errors.
  repeat (constructor;
          [cbn [In]; intros Hin;
           repeat (destruct Hin as [Hin|Hin]; [discriminate Hin|]);
           exact Hin|]).
  constructor.
Qed.

Lemma map_Some_NoDup {A : Type} (l : list A) :
  NoDup l -> NoDup (map Some l).
Proof.
  induction 1 as [|x l Hfresh Hnodup IH]; cbn [map]; constructor.
  - rewrite in_map_iff. intros (y & Heq & Hin).
    injection Heq as ->. exact (Hfresh Hin).
  - exact IH.
Qed.

Lemma parseValidity_split (isValid : list bool) :
  parseSchedulingParametersValidity isValid
  = (map Some (names_at_false Errors isValid)
     ++ repeat None (falseFlags (skipn 6 isValid)))%list.
Proof.
  revert isValid.
  intros isValid.
  unfold parseSchedulingParametersValidity.
  pose proof (names_at_false_firstn Errors isValid) as Hcut.
  change (List.length Errors) with 6%nat in Hcut.
  destruct (Nat.le_gt_cases (List.length isValid) 6) as [Hshort|Hlong].
  - rewrite forEach_push_names
      by (change (List.length Errors) with 6%nat; lia).
    rewrite (skipn_all2 isValid) by lia.
    change (skipn 0 Errors) with Errors.
    unfold falseFlags. cbn [app filter List.length repeat].
    rewrite app_nil_r. reflexivity.
  - pose proof (length_firstn 6 isValid) as Hfront.
    rewrite <- (firstn_skipn 6 isValid) at 1.
    rewrite forEach_push_app.
    rewrite (forEach_push_names (firstn 6 isValid))
      by (change (List.length Errors) with 6%nat; lia).
    rewrite forEach_push_beyond
      by (change (List.length Errors) with 6%nat; lia).
    change (skipn 0 Errors) with Errors.
    rewrite Hcut. reflexivity.
Qed.

(** X1.  Whatever the length of the report, the result is the error names at the
    false flags among the first six, followed by one [undefined] for every
    false flag past the sixth. *)
Theorem parseValidity_any_length :
  forall isValid : list bool,
    parseSchedulingParametersValidity isValid
    = (map Some (names_at_false Errors isValid)
       ++ repeat None (falseFlags (skipn 6 isValid)))%list
    /\ (forall name,
          In (Some name) (parseSchedulingParametersValidity isValid)
          <-> exists i, nth_error Errors i = Some name
                        /\ nth_error isValid i = Some false).
Proof.
  intros isValid.
  split; [apply parseValidity_split|].
  intros name.
  rewrite parseValidity_split, in_app_iff, in_map_iff,
    <- names_at_false_In.
  split.
  - intros [(found & Heq & Hin) | Hrepeat].
    + injection Heq as ->. exact Hin.
    + apply repeat_spec in Hrepeat. discriminate Hrepeat.
  - intros Hin. left. exists name. split; [reflexivity|exact Hin].
Qed.

(** X2.  A report of at most six flags never yields [undefined]: every entry is
    an error name, the names are those at the false flags, in order. *)
Theorem parseValidity_short_defined :
  forall isValid : list bool,
    (List.length isValid <= 6)%nat ->
    parseSchedulingParametersValidity isValid
    = map Some (names_at_false Errors isValid)
    /\ ~ In None (parseSchedulingParametersValidity isValid).
Proof.
  intros isValid Hshort.
  assert (Hparse : parseSchedulingParametersValidity isValid
                   = map Some (names_at_false Errors isValid)).
  { unfold parseSchedulingParametersValidity.
    rewrite forEach_push_names by (cbn; lia).
    reflexivity. }
  split; [exact Hparse|].
  rewrite Hparse, in_map_iff.
  intros (name & Heq & _). discriminate Heq.
Qed.

Lemma parseValidity_short_defined_witness :
  parseSchedulingParametersValidity [true; false; false]
  = map Some ["ReservedWindowBiggerThanExecutionWindow";
              "InvalidTemporalUnit"].
Proof.
  apply (parseValidity_short_defined [true; false; false]).
  cbn. lia.
Defined.

(** X3.  The result holds [undefined] exactly when some flag past the sixth is
    false. *)
Theorem parseValidity_undefined_iff :
  forall isValid : list bool,
    In None (parseSchedulingParametersValidity isValid)
    <-> In false (skipn 6 isValid).
Proof.
  intros isValid.
  rewrite parseValidity_split, in_app_iff, in_map_iff.
  unfold falseFlags.
  split.
  - intros [(name & Heq & _) | Hrepeat]; [discriminate Heq|].
    destruct (filter negb (skipn 6 isValid)) as [|flag others] eqn:Hfilter;
      [destruct Hrepeat|].
    assert (Hin : In flag (filter negb (skipn 6 isValid)))
      by (rewrite Hfilter; left; reflexivity).
    apply filter_In in Hin. destruct Hin as [Hin Hflag].
    destruct flag; [discriminate Hflag|exact Hin].
  - intros Hin. right.
    assert (Hfiltered : In false (filter negb (skipn 6 isValid)))
      by (apply filter_In; split; [exact Hin|reflexivity]).
    destruct (filter negb (skipn 6 isValid)) as [|flag others];
      [destruct Hfiltered|].
    left. reflexivity.
Qed.

Lemma parseValidity_undefined_iff_witness :
  In None
    (parseSchedulingParametersValidity
       [true; true; true; true; true; true; false]).
Proof.
  apply (parseValidity_undefined_iff
           [true; true; true; true; true; true; false]).
  left. reflexivity.
Defined.

(** X4.  The result has one entry per false flag, whatever the length of the
    report; it is empty exactly when every flag is true. *)
Theorem parseValidity_length :
  forall isValid : list bool,
    List.length (parseSchedulingParametersValidity isValid)
    = falseFlags isValid
    /\ (parseSchedulingParametersValidity isValid = []
        <-> forallb (fun flag => flag) isValid = true).
Proof.
  intros isValid.
  assert (Hlen : List.length (parseSchedulingParametersValidity isValid)
                 = falseFlags isValid).
  { unfold parseSchedulingParametersValidity.
    rewrite forEach_push_length. reflexivity. }
  split; [exact Hlen|].
  rewrite <- length_zero_iff_nil, Hlen.
  clear Hlen. unfold falseFlags.
  induction isValid as [|flag rest IH].
  - split; reflexivity.
  - destruct flag; cbn [filter negb forallb andb List.length].
    + exact IH.
    + split; discriminate.
Qed.

Lemma parseValidity_length_witness :
  parseSchedulingParametersValidity [true; true; true] = [].
Proof.
  apply (parseValidity_length [true; true; true]).
  reflexivity.
Defined.

(** X5.  No error is reported twice, and every reported name is one of the six
    known error names. *)
Theorem parseValidity_no_duplicates :
  forall isValid : list bool,
    (List.length isValid <= 6)%nat ->
    NoDup (parseSchedulingParametersValidity isValid)
    /\ (forall entry,
          In entry (parseSchedulingParametersValidity isValid) ->
          exists name, entry = Some name /\ In name Errors).
Proof.
  intros isValid Hshort.
  assert (Hparse : parseSchedulingParametersValidity isValid
                   = map Some (names_at_false Errors isValid)).
  { unfold parseSchedulingParametersValidity.
    rewrite forEach_push_names by (cbn; lia).
    reflexivity. }
  rewrite Hparse. split.
  - apply map_Some_NoDup, names_at_false_NoDup, Errors_NoDup.
  - intros entry Hin. apply in_map_iff in Hin.
    destruct Hin as (name & <- & Hin).
    exists name. split; [reflexivity|].
    apply (names_at_false_incl _ _ _ Hin).
Qed.

Lemma parseValidity_no_duplicates_witness :
  NoDup (parseSchedulingParametersValidity
           [false; false; false; false; false; false]).
Proof.
  apply (parseValidity_no_duplicates
           [false; false; false; false; false; false]).
  cbn. lia.
Defined.

Lemma parseValidity_any_length_witness :
  In (Some "CallGasTooHigh")
    (parseSchedulingParametersValidity
       [true; true; true; true; false; true; false; false]).
Proof.
  apply (parseValidity_any_length
           [true; true; true; true; false; true; false; false]).
  exists 4%nat. split; reflexivity.
Defined.

(** ** Further results: cost formulas *)

(** X6.  A time bounty of zero is a number like any other: only [null] is
    replaced by the minimum.  A given bounty [t] moves the cost of the
    [null] case by [t - TIME_BOUNTY_MIN], so a zero bounty costs one wei less
    than no bounty. *)
Theorem futureExecutionCost_bounty_shift :
  forall callGas callGasPrice timeBounty : BN,
    calcEACFutureExecutionCost callGas callGasPrice (Some timeBounty)
    = calcEACFutureExecutionCost callGas callGasPrice None
      + (timeBounty - TIME_BOUNTY_MIN)
    /\ calcEACFutureExecutionCost callGas callGasPrice (Some 0)
       < calcEACFutureExecutionCost callGas callGasPrice None.
Proof.
  intros callGas callGasPrice timeBounty.
  rewrite !futureExecutionCost_unfold.
  unfold effectiveTimeBounty, or_else, EAC_SCHEDULING_CONFIG.TIME_BOUNTY_MIN,
    TIME_BOUNTY_MIN.
  split; lia.
Qed.

(** X7.  The total cost of scheduling is the endowment without the call value,
    plus the cost of deploying the request at the deployment gas price. *)
Theorem totalCost_endowment :
  forall (gasPriceToBase : Z -> BN)
         (callGas callValue callGasPrice timeBounty gasPrice : BN),
    calcEACTotalCost callGas gasPrice callGasPrice (Some timeBounty)
    + callValue
    = calcEACEndowment gasPriceToBase
        (Some callGas) (Some callValue) (Some callGasPrice) timeBounty
      + gasPrice * EAC_SCHEDULING_CONFIG.SCHEDULING_GAS_LIMIT.
Proof.
  intros gasPriceToBase callGas callValue callGasPrice timeBounty gasPrice.
  rewrite endowment_unfold.
  unfold calcEACTotalCost.
  rewrite futureExecutionCost_unfold.
  unfold effectiveTimeBounty, or_else. lia.
Qed.

(** X8.  On non-negative numbers the total cost does not decrease when the call
    gas, the deployment gas price, the call gas price or the time bounty
    grows. *)
Theorem totalCost_monotone :
  forall callGas gasPrice callGasPrice timeBounty bigger : BN,
    0 <= callGas -> 0 <= gasPrice -> 0 <= callGasPrice -> 0 <= timeBounty ->
    (callGas <= bigger ->
     calcEACTotalCost callGas gasPrice callGasPrice (Some timeBounty)
     <= calcEACTotalCost bigger gasPrice callGasPrice (Some timeBounty))
    /\ (gasPrice <= bigger ->
        calcEACTotalCost callGas gasPrice callGasPrice (Some timeBounty)
        <= calcEACTotalCost callGas bigger callGasPrice (Some timeBounty))
    /\ (callGasPrice <= bigger ->
        calcEACTotalCost callGas gasPrice callGasPrice (Some timeBounty)
        <= calcEACTotalCost callGas gasPrice bigger (Some timeBounty))
    /\ (timeBounty <= bigger ->
        calcEACTotalCost callGas gasPrice callGasPrice (Some timeBounty)
        <= calcEACTotalCost callGas gasPrice callGasPrice (Some bigger)).
Proof.
  intros callGas gasPrice callGasPrice timeBounty bigger
    Hgas Hdeploy Hprice Hbounty.
  unfold calcEACTotalCost.
  rewrite !futureExecutionCost_unfold.
  unfold effectiveTimeBounty, or_else,
    EAC_SCHEDULING_CONFIG.SCHEDULING_GAS_LIMIT.
  repeat split; intros Hle; nia.
Qed.

Lemma totalCost_monotone_witness :
  calcEACTotalCost 21000 20000000000 20000000000 (Some 1)
  <= calcEACTotalCost 21000 30000000000 20000000000 (Some 1).
Proof.
  apply (totalCost_monotone 21000 20000000000 20000000000 1 30000000000);
    lia.
Defined.

(** X9.  With non-negative call gas and gas price the endowment covers at least
    the call value, the time bounty and twice the fee, and it is exactly that
    much only at a gas price of zero. *)
Theorem endowment_lower_bound :
  forall (gasPriceToBase : Z -> BN)
         (callGas callValue callGasPrice timeBounty : BN),
    0 <= callGas -> 0 <= callGasPrice ->
    callValue + timeBounty
    + EAC_SCHEDULING_CONFIG.FEE * EAC_SCHEDULING_CONFIG.FEE_MULTIPLIER
    <= calcEACEndowment gasPriceToBase
         (Some callGas) (Some callValue) (Some callGasPrice) timeBounty
    /\ (calcEACEndowment gasPriceToBase
          (Some callGas) (Some callValue) (Some callGasPrice) timeBounty
        = callValue + timeBounty
          + EAC_SCHEDULING_CONFIG.FEE * EAC_SCHEDULING_CONFIG.FEE_MULTIPLIER
        <-> callGasPrice = 0).
Proof.
  intros gasPriceToBase callGas callValue callGasPrice timeBounty
    Hgas Hprice.
  rewrite endowment_unfold.
  unfold EAC_SCHEDULING_CONFIG.FEE, EAC_SCHEDULING_CONFIG.FEE_MULTIPLIER.
  split; [nia|].
  split; intros Heq; nia.
Qed.

Lemma endowment_lower_bound_witness :
  5 + 1 + EAC_SCHEDULING_CONFIG.FEE * EAC_SCHEDULING_CONFIG.FEE_MULTIPLIER
  <= calcEACEndowment gweiToBase (Some 21000) (Some 5) (Some 20000000000) 1.
Proof.
  apply (endowment_lower_bound gweiToBase 21000 5 20000000000 1); lia.
Defined.

(** X10.  The future execution cost grows strictly with the call gas price as soon
    as the call gas is non-negative, a call gas of zero included: every unit
    of gas price adds the cost of at least the 180000 gas of overhead. *)
Theorem futureExecutionCost_gasPrice_strict :
  forall (callGas callGasPrice higher : BN) (timeBounty : option BN),
    0 <= callGas -> callGasPrice < higher ->
    calcEACFutureExecutionCost callGas callGasPrice timeBounty
    + EAC_SCHEDULING_CONFIG.FUTURE_EXECUTION_COST * (higher - callGasPrice)
    <= calcEACFutureExecutionCost callGas higher timeBounty
    /\ calcEACFutureExecutionCost callGas callGasPrice timeBounty
       < calcEACFutureExecutionCost callGas higher timeBounty.
Proof.
  intros callGas callGasPrice higher timeBounty Hgas Hhigher.
  rewrite !futureExecutionCost_unfold.
  unfold EAC_SCHEDULING_CONFIG.FUTURE_EXECUTION_COST.
  split; nia.
Qed.

Lemma futureExecutionCost_gasPrice_strict_witness :
  calcEACFutureExecutionCost 0 1 None < calcEACFutureExecutionCost 0 2 None.
Proof.
  apply (futureExecutionCost_gasPrice_strict 0 1 2 None); lia.
Defined.

(** ** Further results: schedule-call encoder *)

Section ScheduleDataFurther.

Context {Payload : Type}.
Variable toBuffer : string -> Buffer.
Variable simpleEncode : string -> string -> Buffer -> list JsValue -> Payload.

(** X11.  The guard looks at neither the target address, the call data, the
    required deposit, nor the values of a present call gas and call value:
    two requests that differ only in these are both declined, or both handed
    to the encoder, each with its own address, call data and numbers, a
    negative call gas or call value included. *)
Theorem acceptance_ignores_call :
  forall toAddress toAddress' callData callData'
         (callGas callGas' callValue callValue' : BN)
         windowSize windowStart callGasPrice timeBounty
         requiredDeposit requiredDeposit',
    let first :=
      getScheduleData toBuffer simpleEncode toAddress callData
        (Some callGas) (Some callValue) windowSize windowStart callGasPrice
        timeBounty requiredDeposit in
    let second :=
      getScheduleData toBuffer simpleEncode toAddress' callData'
        (Some callGas') (Some callValue') windowSize windowStart
        callGasPrice timeBounty requiredDeposit' in
    (first = None <-> second = None)
    /\ ((first = None /\ second = None)
        \/ exists size price bounty,
             windowSize = Some size /\ callGasPrice = Some price
             /\ timeBounty = Some bounty
             /\ first
                = Some (simpleEncode
                          "schedule(address,bytes,uint[8]):(address)"
                          toAddress (callDataBuffer toBuffer callData)
                          [ JsBN callGas; JsBN callValue; JsBN size;
                            windowStart; JsBN price;
                            JsBN EAC_SCHEDULING_CONFIG.FEE; JsBN bounty;
                            JsBN (clampedDeposit requiredDeposit) ])
             /\ second
                = Some (simpleEncode
                          "schedule(address,bytes,uint[8]):(address)"
                          toAddress' (callDataBuffer toBuffer callData')
                          [ JsBN callGas'; JsBN callValue'; JsBN size;
                            windowStart; JsBN price;
                            JsBN EAC_SCHEDULING_CONFIG.FEE; JsBN bounty;
                            JsBN (clampedDeposit requiredDeposit') ])).
Proof.
  intros toAddress toAddress' callData callData' callGas callGas'
    callValue callValue' windowSize windowStart callGasPrice timeBounty
    requiredDeposit requiredDeposit' first second.
  subst first second.
  destruct (declines (Some callGas) (Some callValue) windowSize windowStart
              callGasPrice timeBounty) eqn:Hdeclines.
  - rewrite (getScheduleData_declined toBuffer simpleEncode toAddress
               callData _ _ _ _ _ _ requiredDeposit Hdeclines).
    rewrite (getScheduleData_declined toBuffer simpleEncode toAddress'
               callData' (Some callGas') (Some callValue') _ _ _ _
               requiredDeposit' Hdeclines).
    split; [tauto|left; split; reflexivity].
  - destruct (getScheduleData_accepted toBuffer simpleEncode toAddress
                callData _ _ _ _ _ _ requiredDeposit Hdeclines)
      as (gas & value & size & price & bounty
          & Hgas & Hvalue & -> & -> & -> & Hfirst).
    destruct (getScheduleData_accepted toBuffer simpleEncode toAddress'
                callData' (Some callGas') (Some callValue') _ _ _ _
                requiredDeposit' Hdeclines)
      as (gas' & value' & size' & price' & bounty'
          & Hgas' & Hvalue' & Hsize' & Hprice' & Hbounty' & Hsecond).
    injection Hgas as <-. injection Hvalue as <-.
    injection Hgas' as <-. injection Hvalue' as <-.
    injection Hsize' as <-. injection Hprice' as <-.
    injection Hbounty' as <-.
    rewrite Hfirst, Hsecond.
    split; [split; discriminate|].
    right. exists size, price, bounty.
    repeat (split; [reflexivity|]). reflexivity.
Qed.

(** X12.  A window start handed over as a [BN] passes the guard whatever its
    value, zero included, where the number zero does not: with a
    non-negative time bounty and gas price and a window size within 256
    bits there is a result, the outcome of the encoder called with that
    [BN] as the fourth of the eight numbers. *)
Theorem windowStart_BN_accepted :
  forall toAddress callData callGas callValue windowSize (start : BN)
         callGasPrice timeBounty requiredDeposit,
    0 <= timeBounty -> 0 <= callGasPrice -> 0 <= windowSize < 2 ^ 256 ->
    getScheduleData toBuffer simpleEncode toAddress callData
      (Some callGas) (Some callValue) (Some windowSize) (JsBN start)
      (Some callGasPrice) (Some timeBounty) requiredDeposit
    = Some (simpleEncode "schedule(address,bytes,uint[8]):(address)"
              toAddress (callDataBuffer toBuffer callData)
              [ JsBN callGas; JsBN callValue; JsBN windowSize; JsBN start;
                JsBN callGasPrice; JsBN EAC_SCHEDULING_CONFIG.FEE;
                JsBN timeBounty; JsBN (clampedDeposit requiredDeposit) ]).
Proof.
  intros toAddress callData callGas callValue windowSize start callGasPrice
    timeBounty requiredDeposit Hbounty Hprice Hsize.
  rewrite getScheduleData_present.
  rewrite valid_guard by assumption.
  reflexivity.
Qed.

End ScheduleDataFurther.

Lemma acceptance_ignores_call_witness :
  getScheduleData bytesOfString recordCall
    "0xc6370807f0164bdf10a66c08d0dab1028dbe80a3"
    (Some (CallDataBuffer [x12])) (Some (-1)) (Some (-2)) (Some 10)
    (JsNumber 100) (Some 20000000000) (Some 1) (Some 9)
  = Some {| call_signature := "schedule(address,bytes,uint[8]):(address)";
            call_address := "0xc6370807f0164bdf10a66c08d0dab1028dbe80a3";
            call_data := [x12];
            call_uints :=
              [ JsBN (-1); JsBN (-2); JsBN 10; JsNumber 100;
                JsBN 20000000000; JsBN 2242000000000000; JsBN 1; JsBN 9 ] |}.
Proof.
  destruct (proj2 (acceptance_ignores_call bytesOfString recordCall
                     "0x1afc19a7e642761ba2b55d2a45b32c7ef08269d1"
                     "0xc6370807f0164bdf10a66c08d0dab1028dbe80a3"
                     None (Some (CallDataBuffer [x12])) 21000 (-1) 0 (-2)
                     (Some 10) (JsNumber 100) (Some 20000000000) (Some 1)
                     None (Some 9)))
    as [[Hfirst _] | (size & price & bounty
                      & Hsize & Hprice & Hbounty & _ & Hsecond)].
  - cbv in Hfirst. discriminate Hfirst.
  - injection Hsize as <-. injection Hprice as <-. injection Hbounty as <-.
    exact Hsecond.
Defined.

Lemma windowStart_BN_accepted_witness :
  getScheduleData bytesOfString recordCall
    "0x1afc19a7e642761ba2b55d2a45b32c7ef08269d1" None
    (Some 21000) (Some 7) (Some 10) (JsBN 0)
    (Some 20000000000) (Some 1) None
  = Some {| call_signature := "schedule(address,bytes,uint[8]):(address)";
            call_address := "0x1afc19a7e642761ba2b55d2a45b32c7ef08269d1";
            call_data := [];
            call_uints :=
              [ JsBN 21000; JsBN 7; JsBN 10; JsBN 0;
                JsBN 20000000000; JsBN 2242000000000000; JsBN 1; JsBN 0 ] |}
  /\ getScheduleData bytesOfString uintCheckingEncoder
       "0x1afc19a7e642761ba2b55d2a45b32c7ef08269d1" None
       (Some 21000) (Some 7) (Some 10) (JsBN (-3))
       (Some 20000000000) (Some 1) None
     = Some (EncoderThrows "Supplied uint is negative").
Proof.
  split.
  - apply (windowStart_BN_accepted bytesOfString recordCall
             "0x1afc19a7e642761ba2b55d2a45b32c7ef08269d1" None
             21000 7 10 0 20000000000 1 None).
    + lia.
    + lia.
    + split; [lia|reflexivity].
  - apply (windowStart_BN_accepted bytesOfString uintCheckingEncoder
             "0x1afc19a7e642761ba2b55d2a45b32c7ef08269d1" None
             21000 7 10 (-3) 20000000000 1 None).
    + lia.
    + lia.
    + split; [lia|reflexivity].
Defined.

(** X13.  The call that reaches the encoder determines the request: two requests
    that lead to the same call have the same target address, call data
    bytes, call gas, call value, window, gas price and time bounty, and
    deposits that are equal once clamped. *)
Theorem encoder_call_determines_request :
  forall (toBuffer : string -> Buffer)
         toAddress toAddress' callData callData' callGas callGas'
         callValue callValue' windowSize windowSize' windowStart windowStart'
         callGasPrice callGasPrice' timeBounty timeBounty'
         requiredDeposit requiredDeposit' (call : EncodeCall),
    getScheduleData toBuffer recordCall toAddress callData callGas callValue
      windowSize windowStart callGasPrice timeBounty requiredDeposit
    = Some call ->
    getScheduleData toBuffer recordCall toAddress' callData' callGas'
      callValue' windowSize' windowStart' callGasPrice' timeBounty'
      requiredDeposit'
    = Some call ->
    toAddress = toAddress'
    /\ callDataBuffer toBuffer callData = callDataBuffer toBuffer callData'
    /\ callGas = callGas' /\ callValue = callValue'
    /\ windowSize = windowSize' /\ windowStart = windowStart'
    /\ callGasPrice = callGasPrice' /\ timeBounty = timeBounty'
    /\ clampedDeposit requiredDeposit = clampedDeposit requiredDeposit'.
Proof.
  intros toBuffer toAddress toAddress' callData callData' callGas callGas'
    callValue callValue' windowSize windowSize' windowStart windowStart'
    callGasPrice callGasPrice' timeBounty timeBounty'
    requiredDeposit requiredDeposit' call Hfirst Hsecond.
  destruct (declines callGas callValue windowSize windowStart callGasPrice
              timeBounty) eqn:Hdeclines.
  { rewrite (getScheduleData_declined _ _ _ _ _ _ _ _ _ _ _ Hdeclines)
      in Hfirst.
    discriminate Hfirst. }
  destruct (declines callGas' callValue' windowSize' windowStart'
              callGasPrice' timeBounty') eqn:Hdeclines'.
  { rewrite (getScheduleData_declined _ _ _ _ _ _ _ _ _ _ _ Hdeclines')
      in Hsecond.
    discriminate Hsecond. }
  destruct (getScheduleData_accepted toBuffer recordCall toAddress callData
              _ _ _ _ _ _ requiredDeposit Hdeclines)
    as (gas & value & size & price & bounty
        & -> & -> & -> & -> & -> & Hcall).
  destruct (getScheduleData_accepted toBuffer recordCall toAddress'
              callData' _ _ _ _ _ _ requiredDeposit' Hdeclines')
    as (gas' & value' & size' & price' & bounty'
        & -> & -> & -> & -> & -> & Hcall').
  rewrite Hcall in Hfirst. rewrite Hcall' in Hsecond.
  rewrite <- Hsecond in Hfirst.
  unfold scheduleCall, recordCall in Hfirst.
  injection Hfirst as Haddress Hdata Hgas Hvalue Hsize Hstart Hprice
    Hbounty Hdeposit.
  subst. rewrite Hdeposit. repeat split; reflexivity || assumption.
Qed.

Lemma encoder_call_determines_request_witness :
  clampedDeposit (Some (-5)) = clampedDeposit None.
Proof.
  apply (encoder_call_determines_request bytesOfString
           "0x1afc19a7e642761ba2b55d2a45b32c7ef08269d1"
           "0x1afc19a7e642761ba2b55d2a45b32c7ef08269d1"
           None (Some (CallDataBuffer []))
           (Some 21000) (Some 21000) (Some 7) (Some 7)
           (Some 10) (Some 10) (JsNumber 100) (JsNumber 100)
           (Some 20000000000) (Some 20000000000) (Some 1) (Some 1)
           (Some (-5)) None
           (recordCall "schedule(address,bytes,uint[8]):(address)"
              "0x1afc19a7e642761ba2b55d2a45b32c7ef08269d1" []
              [ JsBN 21000; JsBN 7; JsBN 10; JsNumber 100;
                JsBN 20000000000; JsBN 2242000000000000; JsBN 1; JsBN 0 ]));
    reflexivity.
Defined.

(** ** Further results: addresses and status page *)

Lemma append_inj_l (prefix : string) :
  forall a b : string, (prefix ++ a)%string = (prefix ++ b)%string -> a = b.
Proof.
  induction prefix as [|c prefix IH]; intros a b Heq; cbn in Heq.
  - exact Heq.
  - injection Heq as Heq. apply (IH _ _ Heq).
Qed.

Lemma substring_whole (text : string) :
  substring 0 (String.length text) text = text.
Proof.
  induction text as [|c text IH]; cbn; [|rewrite IH]; reflexivity.
Qed.

Lemma substring_after_prefix (prefix text : string) :
  substring (String.length prefix) (String.length text)
    (prefix ++ text)%string
  = text.
Proof.
  induction prefix as [|c prefix IH]; cbn.
  - apply substring_whole.
  - exact IH.
Qed.

Lemma substring_prefix (prefix text : string) :
  substring 0 (String.length prefix) (prefix ++ text)%string = prefix.
Proof.
  induction prefix as [|c prefix IH]; cbn.
  - destruct text; reflexivity.
  - rewrite IH. reflexivity.
Qed.

Lemma length_append (a b : string) :
  String.length (a ++ b)%string = (String.length a + String.length b)%nat.
Proof.
  induction a as [|c a IH]; cbn; [|rewrite IH]; reflexivity.
Qed.

(** X14.  The status page address carries the transaction hash unchanged after a
    fixed prefix of 51 characters: the hash is read back from the address,
    and different hashes give different addresses. *)
Theorem getTXDetailsCheckURL_round_trip :
  forall txHash : string,
    substring 51 (String.length txHash) (getTXDetailsCheckURL txHash)
    = txHash
    /\ substring 0 51 (getTXDetailsCheckURL txHash)
       = "https://app.chronologic.network/awaiting/scheduler/"
    /\ String.length (getTXDetailsCheckURL txHash)
       = (51 + String.length txHash)%nat
    /\ (forall other : string,
          getTXDetailsCheckURL txHash = getTXDetailsCheckURL other ->
          txHash = other).
Proof.
  intros txHash.
  assert (Hurl : forall hash,
             getTXDetailsCheckURL hash
             = ("https://app.chronologic.network/awaiting/scheduler/"
                ++ hash)%string) by reflexivity.
  split; [|split; [|split]].
  - rewrite Hurl.
    apply (substring_after_prefix
             "https://app.chronologic.network/awaiting/scheduler/").
  - rewrite Hurl.
    apply (substring_prefix
             "https://app.chronologic.network/awaiting/scheduler/").
  - rewrite Hurl, length_append. reflexivity.
  - intros other Heq. rewrite !Hurl in Heq.
    apply (append_inj_l _ _ _ Heq).
Qed.

Lemma getTXDetailsCheckURL_round_trip_witness :
  substring 51 5
    "https://app.chronologic.network/awaiting/scheduler/0xABC"
  = "0xABC"
  /\ "0xABC" = "0xABC".
Proof.
  split.
  - exact (proj1 (getTXDetailsCheckURL_round_trip "0xABC")).
  - apply (proj2 (proj2 (proj2 (getTXDetailsCheckURL_round_trip "0xABC")))).
    reflexivity.
Defined.

(** X15.  Only the exact text [time] selects the timestamp scheduler; every other
    scheduling method, [null] and differently cased text included, selects
    the block scheduler. *)
Theorem getSchedulerAddress_cases :
  forall (AddressValue : Type) (Address : string -> AddressValue)
         (scheduleType : option string),
    (scheduleType = Some "time" ->
     getSchedulerAddress Address scheduleType
     = Address EAC_ADDRESSES.KOVAN.timestampScheduler)
    /\ (scheduleType <> Some "time" ->
        getSchedulerAddress Address scheduleType
        = Address EAC_ADDRESSES.KOVAN.blockScheduler)
    /\ getSchedulerAddress Address None
       = Address EAC_ADDRESSES.KOVAN.blockScheduler
    /\ getSchedulerAddress Address (Some "Time")
       = Address EAC_ADDRESSES.KOVAN.blockScheduler.
Proof.
  intros AddressValue Address scheduleType.
  split; [|split; [|split; reflexivity]].
  - intros ->. reflexivity.
  - intros Hother. unfold getSchedulerAddress, strict_eq.
    destruct scheduleType as [method|]; [|reflexivity].
    destruct (String.eqb_spec method "time") as [->|Hneq].
    + exfalso. apply Hother. reflexivity.
    + reflexivity.
Qed.

Lemma getSchedulerAddress_cases_witness :
  getSchedulerAddress (fun text : string => text) (Some "block")
  = "0x1afc19a7e642761ba2b55d2a45b32c7ef08269d1".
Proof.
  refine (proj1 (proj2 (getSchedulerAddress_cases string (fun text => text)
                          (Some "block"))) _).
  discriminate.
Defined.

End Scheduling.
